(** * hardware.ino: an ESP8266 web remote for a Midea IR fan

    A shallow embedding of [src/hardware/hardware.ino].  The sketch is a set
    of [void f()] functions over four global objects ([Serial], [irsend],
    [server], [WiFi]) and one global flag ([isFanOn]).  The globals are
    gathered in the record [World]; every sketch function is a computation
    in the state monad [M] over that record.  Whatever the sketch makes
    observable outside the chip (serial output, IR frames, HTTP responses,
    delays) is appended to [trace], oldest event first. *)

From Stdlib Require Import ZArith List String Ascii Bool Lia.
Import ListNotations.

Local Open Scope Z_scope.
Local Open Scope string_scope.
Local Open Scope list_scope.

(** ** Vendor enumerations (only the members the sketch can meet) *)

(** [decode_type_t] of IRremoteESP8266. *)
Inductive decode_type_t := UNKNOWN | NEC | SONY | MIDEA | MIDEA24.

(** [HTTPMethod] of ESP8266WebServer. *)
Inductive HTTPMethod :=
  HTTP_ANY | HTTP_GET | HTTP_HEAD | HTTP_POST | HTTP_PUT
| HTTP_PATCH | HTTP_DELETE | HTTP_OPTIONS.

(** [wl_status_t] of ESP8266WiFi. *)
Inductive wl_status_t :=
  WL_IDLE_STATUS | WL_NO_SSID_AVAIL | WL_CONNECTED | WL_CONNECT_FAILED
| WL_WRONG_PASSWORD | WL_DISCONNECTED.

(** The five handler functions of the sketch, as the server stores them:
    a function pointer is the name of the function it points to. *)
Inductive THandlerFunction :=
  HandleRoot | HandleToggle | HandleSetState
| HandleSendAddPower | HandleSendLowerPower.

Definition HTTPMethod_eqb (a b : HTTPMethod) : bool :=
  match a, b with
  | HTTP_ANY, HTTP_ANY | HTTP_GET, HTTP_GET | HTTP_HEAD, HTTP_HEAD
  | HTTP_POST, HTTP_POST | HTTP_PUT, HTTP_PUT | HTTP_PATCH, HTTP_PATCH
  | HTTP_DELETE, HTTP_DELETE | HTTP_OPTIONS, HTTP_OPTIONS => true
  | _, _ => false
  end.

Definition wl_status_eqb (a b : wl_status_t) : bool :=
  match a, b with
  | WL_IDLE_STATUS, WL_IDLE_STATUS | WL_NO_SSID_AVAIL, WL_NO_SSID_AVAIL
  | WL_CONNECTED, WL_CONNECTED | WL_CONNECT_FAILED, WL_CONNECT_FAILED
  | WL_WRONG_PASSWORD, WL_WRONG_PASSWORD
  | WL_DISCONNECTED, WL_DISCONNECTED => true
  | _, _ => false
  end.

(** ** Observable events *)

(** An argument of [Serial.printf]; the format string is kept as written. *)
Inductive PrintfArg :=
| ArgInt (z : Z)
| ArgStr (s : string).

Inductive Event :=
| SerialBegin (baud : Z)
| SerialPrint (s : string)
| SerialPrintln (s : string)
| SerialPrintf (fmt : string) (args : list PrintfArg)
| Delay (ms : Z)
| IRBegin (pin : Z)
| IRSend (type : decode_type_t) (data : Z) (nbits : Z)
| WiFiBegin (ssid_ pass_ : string)
| ServerBegin (port : Z)
| HttpResponse (code : Z) (content_type : option string)
               (headers : list (string * string)) (content : string).

(** One registered route: [server.on(uri, method, fn)]. *)
Definition RequestHandler : Type := (string * HTTPMethod * THandlerFunction)%type.

(** ** The globals *)

Record World := mkWorld {
  isFanOn : bool;                             (* bool isFanOn *)
  handlers : list RequestHandler;             (* server: routes, in order *)
  currentArgs : list (string * string);       (* server: args of the request *)
  responseHeaders : list (string * string);   (* server: headers queued *)
  trace : list Event                          (* everything emitted so far *)
}.

Definition with_isFanOn (b : bool) (w : World) : World :=
  mkWorld b (handlers w) (currentArgs w) (responseHeaders w) (trace w).

Definition with_handlers (h : list RequestHandler) (w : World) : World :=
  mkWorld (isFanOn w) h (currentArgs w) (responseHeaders w) (trace w).

Definition with_currentArgs (a : list (string * string)) (w : World) : World :=
  mkWorld (isFanOn w) (handlers w) a (responseHeaders w) (trace w).

Definition with_responseHeaders (h : list (string * string)) (w : World) : World :=
  mkWorld (isFanOn w) (handlers w) (currentArgs w) h (trace w).

Definition with_trace (t : list Event) (w : World) : World :=
  mkWorld (isFanOn w) (handlers w) (currentArgs w) (responseHeaders w) t.

(** ** The state monad of the sketch *)

Definition M (A : Type) : Type := World -> A * World.

Definition ret {A} (a : A) : M A := fun w => (a, w).

Definition bind {A B} (m : M A) (k : A -> M B) : M B :=
  fun w => let (a, w') := m w in k a w'.

Declare Scope sketch_scope.
Delimit Scope sketch_scope with sketch.
Notation "x <- m ;; k" := (bind m (fun x => k))
  (at level 61, m at next level, right associativity) : sketch_scope.
Notation "m ;; k" := (bind m (fun _ => k))
  (at level 61, right associativity) : sketch_scope.
Local Open Scope sketch_scope.

(** Final globals of a [void] function started in [w]. *)
Definition exec {A} (m : M A) (w : World) : World := snd (m w).

Definition emit (e : Event) : M unit :=
  fun w => (tt, with_trace (trace w ++ [e]) w).

Definition get_isFanOn : M bool := fun w => (isFanOn w, w).

Definition set_isFanOn (b : bool) : M unit := fun w => (tt, with_isFanOn b w).

(** ** Vendor calls used by the sketch *)

Definition LF : string := String (ascii_of_nat 10) EmptyString.
Definition DQ : string := String (ascii_of_nat 34) EmptyString.

Definition Serial_begin (baud : Z) : M unit := emit (SerialBegin baud).
Definition Serial_print (s : string) : M unit := emit (SerialPrint s).
Definition Serial_println (s : string) : M unit := emit (SerialPrintln s).
Definition Serial_printf (fmt : string) (args : list PrintfArg) : M unit :=
  emit (SerialPrintf fmt args).
Definition delay (ms : Z) : M unit := emit (Delay ms).


(** [IRsend::send(decode_type_t type, uint64_t data, uint16_t nbits)]: the
    two integer parameters are converted to the callee's unsigned types. *)
Definition irsend_send (type : decode_type_t) (data nbits : Z) : M unit :=
  emit (IRSend type (data mod 2 ^ 64) (nbits mod 2 ^ 16)).

Definition WiFi_begin (ssid_ pass_ : string) : M unit := emit (WiFiBegin ssid_ pass_).

(** [server.hasArg(name)]: some argument of the current request has that key. *)
Definition server_hasArg (name : string) : M bool :=
  fun w => (existsb (fun kv => String.eqb (fst kv) name) (currentArgs w), w).

Fixpoint lookup_arg (name : string) (args : list (string * string)) : string :=
  match args with
  | [] => EmptyString
  | (k, v) :: rest => if String.eqb k name then v else lookup_arg name rest
  end.

(** [server.arg(name)]: the value of the first argument with that key, the
    empty [String] when there is none. *)
Definition server_arg (name : string) : M string :=
  fun w => (lookup_arg name (currentArgs w), w).

(** [server.sendHeader(name, value)] queues a header for the next response. *)
Definition server_sendHeader (name value : string) : M unit :=
  fun w => (tt, with_responseHeaders (responseHeaders w ++ [(name, value)]) w).

(** [server.send(code, content_type, content)] writes the response with the
    queued headers and empties the queue. *)
Definition server_send (code : Z) (content_type : option string)
    (content : string) : M unit :=
  fun w =>
    (tt, with_responseHeaders []
           (with_trace
              (trace w ++ [HttpResponse code content_type (responseHeaders w) content])
              w)).

(** [server.on(uri, method, fn)] appends a route to the server's list. *)
Definition server_on (uri : string) (method : HTTPMethod)
    (fn : THandlerFunction) : M unit :=
  fun w => (tt, with_handlers (handlers w ++ [(uri, method, fn)]) w).


(** ** The sketch: configuration *)

Definition ssid : string := "Xander".
Definition password : string := "e9c7uekd".

Definition kIrLedPin : Z := 5.
Definition IR_BITS : Z := 24.

Definition IR_CODE_TOGGLE_FAN : Z := 0x80C0C0.
Definition IR_CODE_ADD_POWER : Z := 0x80B0B0.
Definition IR_CODE_LOWER_POWER : Z := 0x808888.

(** Ranges of the C++ types of [sendIRSignal]'s parameters. *)
Definition is_uint32 (z : Z) : Prop := 0 <= z < 2 ^ 32.
Definition is_uint8 (z : Z) : Prop := 0 <= z < 2 ^ 8.

Definition onoff (b : bool) : string := if b then "ON" else "OFF".

(** [IRsend irsend(kIrLedPin)]: [begin] readies the pin it was built with. *)
Definition irsend_begin : M unit := emit (IRBegin kIrLedPin).

(** [ESP8266WebServer server(80)]: [begin] starts listening on its port. *)
Definition server_begin : M unit := emit (ServerBegin 80).

(** ** The sketch: functions *)

Definition sendIRSignal (code bits : Z) : M unit :=
  Serial_printf
    ("Sending IR Signal -> Protocol: MIDEA, Code: 0x%06X, Bits: %d" ++ LF)
    [ArgInt code; ArgInt bits] ;;
  irsend_send MIDEA24 code bits ;;
  Serial_println "Signal sent successfully.".

Definition handleToggle : M unit :=
  sendIRSignal IR_CODE_TOGGLE_FAN IR_BITS ;;
  b <- get_isFanOn ;;
  set_isFanOn (negb b) ;;
  b' <- get_isFanOn ;;
  Serial_printf ("New fan state: %s" ++ LF) [ArgStr (onoff b')] ;;
  server_sendHeader "Location" "/" ;;
  server_send 303 None EmptyString.

Definition handleSetState : M unit :=
  has <- server_hasArg "state" ;;
  (if has then
     stateArg <- server_arg "state" ;;
     (if String.eqb stateArg "on" then set_isFanOn true
      else if String.eqb stateArg "off" then set_isFanOn false
      else ret tt) ;;
     b <- get_isFanOn ;;
     Serial_printf ("State manually synced to: %s" ++ LF) [ArgStr (onoff b)]
   else ret tt) ;;
  server_sendHeader "Location" "/" ;;
  server_send 303 None EmptyString.

Definition handleSendAddPower : M unit :=
  sendIRSignal IR_CODE_ADD_POWER IR_BITS ;;
  server_sendHeader "Location" "/" ;;
  server_send 303 None EmptyString.

Definition handleSendLowerPower : M unit :=
  sendIRSignal IR_CODE_LOWER_POWER IR_BITS ;;
  server_sendHeader "Location" "/" ;;
  server_send 303 None EmptyString.

Section Page.

Local Open Scope string_scope.

(** The three raw string literals of [handleRoot], line by line. *)
Definition PAGE_HEAD : string :=
  String.concat LF
    [ EmptyString;
      "<!DOCTYPE html>";
      "<html>";
      "<head>";
      "  <meta charset='utf-8'>";
      "  <meta name='viewport' content='width=device-width,initial-scale=1'>";
      "  <title>ESP8266 State Remote</title>";
      "  <style>";
      "    body { font-family: Arial, sans-serif; text-align: center; margin-top: 50px; background-color: #f4f4f4; }";
      "    h2, h3 { color: #333; }";
      "    .container { border: 1px solid #ccc; background-color: #fff; padding: 20px; margin: 20px auto; max-width: 400px; border-radius: 8px; box-shadow: 0 2px 4px rgba(0,0,0,0.1); }";
      "    button { padding: 12px 24px; font-size: 18px; margin: 5px; cursor: pointer; border: none; border-radius: 5px; color: white; }";
      "    .btn-main { background-color: #28a745; }";
      "    .btn-main.off { background-color: #dc3545; }";
      "    .btn-sync { background-color: #ffc107; color: #333; font-size: 14px; padding: 8px 16px;}";
      "  </style>";
      "</head>";
      "<body>";
      "  <h2>ESP8266 Midea IR Remote</h2>" ].

Definition PAGE_POWER : string :=
  String.concat LF
    [ EmptyString;
      "  <div class=" ++ DQ ++ "container" ++ DQ ++ ">";
      "    <h3>Power Control</h3>";
      "    <form action='/send_add_power' method='post' style='display:inline;'>";
      "      <button type='submit'>Increase Power</button>";
      "    </form>";
      "    <form action='/send_lower_power' method='post' style='display:inline;'>";
      "      <button type='submit'>Decrease Power</button>";
      "    </form>";
      "  </div>" ].

Definition PAGE_SYNC : string :=
  String.concat LF
    [ EmptyString;
      "  <div class=" ++ DQ ++ "container" ++ DQ ++ ">";
      "    <h3>Manual Sync</h3>";
      "    <p>If the state above is wrong, correct it here. This will NOT send an IR signal.</p>";
      "    <form action='/set_state' method='post' style='display:inline;'>";
      "      <button type='submit' name='state' value='on' class='btn-sync'>Set state to ON</button>";
      "    </form>";
      "    <form action='/set_state' method='post' style='display:inline;'>";
      "      <button type='submit' name='state' value='off' class='btn-sync'>Set state to OFF</button>";
      "    </form>";
      "  </div>" ].

(** The part of [handleRoot] that builds the local [String html]. *)
Definition handleRoot_html : M string :=
  let html := PAGE_HEAD in
  let html := html ++ "<div class='container'>" in
  let html := html ++ "<h3>Main Control</h3>" in
  let html := html ++ "<p>Current State: <b>" in
  on1 <- get_isFanOn ;;
  let html := html ++ (if on1 then "ON" else "OFF") in
  let html := html ++ "</b></p>" in
  let html := html ++ "<form action='/toggle' method='post'>" in
  on2 <- get_isFanOn ;;
  let html :=
    if on2
    then html ++ "<button type='submit' class='btn-main off'>Turn OFF</button>"
    else html ++ "<button type='submit' class='btn-main'>Turn ON</button>" in
  let html := html ++ "</form></div>" in
  let html := html ++ PAGE_POWER in
  let html := html ++ PAGE_SYNC in
  let html := html ++ "</body></html>" in
  ret html.

Definition handleRoot : M unit :=
  html <- handleRoot_html ;;
  server_send 200 (Some "text/html") html.

End Page.

(** ** The sketch: [setup] *)

(** What the radio answers: the status returned by the [k]-th call of
    [WiFi.status()] (counted from 0) and the address [WiFi.localIP()]
    prints as. *)
Record Radio := mkRadio {
  WiFi_status : nat -> wl_status_t;
  WiFi_localIP : string
}.

(** [while (WiFi.status() != WL_CONNECTED) { delay(500); Serial.print("."); }]
    with a bound on the number of polls; [None] when the bound is reached. *)
Fixpoint wait_for_wifi (fuel : nat) (radio : Radio) (k : nat) (w : World)
  : option World :=
  match fuel with
  | O => None
  | S fuel' =>
      if wl_status_eqb (WiFi_status radio k) WL_CONNECTED then Some w
      else wait_for_wifi fuel' radio (S k)
             (exec (delay 500 ;; Serial_print ".") w)
  end.

Definition setup_prologue : M unit :=
  Serial_begin 115200 ;;
  delay 100 ;;
  Serial_println (LF ++ "Starting ESP8266 State-aware IR Remote...") ;;
  irsend_begin ;;
  WiFi_begin ssid password ;;
  Serial_print "Connecting to WiFi".

Definition setup_epilogue (radio : Radio) : M unit :=
  Serial_println (LF ++ "WiFi connected!") ;;
  Serial_print "IP Address: http://" ;;
  Serial_println (WiFi_localIP radio) ;;
  server_on "/" HTTP_GET HandleRoot ;;
  server_on "/toggle" HTTP_POST HandleToggle ;;
  server_on "/set_state" HTTP_POST HandleSetState ;;
  server_on "/send_add_power" HTTP_POST HandleSendAddPower ;;
  server_on "/send_lower_power" HTTP_POST HandleSendLowerPower ;;
  server_begin ;;
  Serial_println "HTTP server started.".

Definition setup (fuel : nat) (radio : Radio) (w : World) : option World :=
  match wait_for_wifi fuel radio 0 (exec setup_prologue w) with
  | None => None
  | Some w' => Some (exec (setup_epilogue radio) w')
  end.

(** The globals as their initialisers leave them, before [setup] runs. *)
Definition boot : World :=
  {| isFanOn := false; handlers := []; currentArgs := [];
     responseHeaders := []; trace := [] |}.

(** ** The sketch: [loop], and the server's dispatch *)

Record Request := mkRequest {
  req_method : HTTPMethod;
  req_uri : string;
  req_args : list (string * string)
}.

Definition run_handler (fn : THandlerFunction) : M unit :=
  match fn with
  | HandleRoot => handleRoot
  | HandleToggle => handleToggle
  | HandleSetState => handleSetState
  | HandleSendAddPower => handleSendAddPower
  | HandleSendLowerPower => handleSendLowerPower
  end.

Definition canHandle (method : HTTPMethod) (uri : string) (h : RequestHandler) : bool :=
  let '(u, m, _) := h in
  (HTTPMethod_eqb m HTTP_ANY || HTTPMethod_eqb m method) && String.eqb u uri.

(** [server.handleClient()]: with no client waiting it does nothing; else it
    parses the request, runs the first route that can handle it, and answers
    404 when there is none. *)
Definition server_handleClient (incoming : option Request) : M unit :=
  match incoming with
  | None => ret tt
  | Some r =>
      fun w =>
        let w1 := with_currentArgs (req_args r) w in
        match find (canHandle (req_method r) (req_uri r)) (handlers w1) with
        | Some (_, _, fn) => run_handler fn w1
        | None =>
            server_send 404 (Some "text/plain") ("Not found: " ++ req_uri r) w1
        end
  end.

Definition loop (incoming : option Request) : M unit :=
  server_handleClient incoming.

(** The sketch after [setup]: one [loop] iteration per element of [ins]. *)
Fixpoint run_loop (ins : list (option Request)) (w : World) : World :=
  match ins with
  | [] => w
  | i :: rest => run_loop rest (exec (loop i) w)
  end.

(** ** Reading a trace *)

(** The IR frames of a trace, in order: protocol, data, bit count. *)
Fixpoint ir_sent (t : list Event) : list (decode_type_t * Z * Z) :=
  match t with
  | [] => []
  | IRSend p d n :: rest => (p, d, n) :: ir_sent rest
  | _ :: rest => ir_sent rest
  end.

(** The HTTP responses of a trace, in order. *)
Fixpoint responses (t : list Event) : list Event :=
  match t with
  | [] => []
  | HttpResponse c ct hs b :: rest => HttpResponse c ct hs b :: responses rest
  | _ :: rest => responses rest
  end.

(** The events a computation adds when started in [w]. *)
Definition emitted {A} (m : M A) (w : World) : list Event :=
  skipn (List.length (trace w)) (trace (exec m w)).

(** A redirect to the root page: an empty 303 response whose headers
    include [Location: /]. *)
Definition is_redirect_to_root (e : Event) : bool :=
  match e with
  | HttpResponse 303 None hs EmptyString =>
      existsb (fun kv => String.eqb (fst kv) "Location" && String.eqb (snd kv) "/") hs
  | _ => false
  end.

(** Substring test, for reading the generated page. *)
Fixpoint contains (needle hay : string) : bool :=
  String.prefix needle hay ||
  match hay with
  | EmptyString => false
  | String _ rest => contains needle rest
  end.

(** What [server.hasArg] and [server.arg] answer in [w]. *)
Definition hasArg (w : World) (name : string) : bool := fst (server_hasArg name w).
Definition arg (w : World) (name : string) : string := fst (server_arg name w).

(** The frames the sketch is allowed to send. *)
Definition fixed_frame (f : decode_type_t * Z * Z) : Prop :=
  let '(p, d, n) := f in
  p = MIDEA24 /\ n = 24 /\ (d = 0x80C0C0 \/ d = 0x80B0B0 \/ d = 0x808888).

(** The routes [setup] is expected to register, in registration order. *)
Definition five_routes : list RequestHandler :=
  [ ("/", HTTP_GET, HandleRoot);
    ("/toggle", HTTP_POST, HandleToggle);
    ("/set_state", HTTP_POST, HandleSetState);
    ("/send_add_power", HTTP_POST, HandleSendAddPower);
    ("/send_lower_power", HTTP_POST, HandleSendLowerPower) ].

(** The last event of a trace is a redirect to the root page. *)
Definition ends_with_redirect (t : list Event) : bool :=
  match rev t with
  | e :: _ => is_redirect_to_root e
  | [] => false
  end.

(** ** Sample environments and requests *)

Definition radio_up_at_once : Radio :=
  {| WiFi_status := fun _ => WL_CONNECTED; WiFi_localIP := "192.168.4.1" |}.

Definition radio_up_third_poll : Radio :=
  {| WiFi_status := fun k => if Nat.leb 2 k then WL_CONNECTED else WL_DISCONNECTED;
     WiFi_localIP := "10.0.0.7" |}.

Definition after_setup : World :=
  match setup 1 radio_up_at_once boot with
  | Some w => w
  | None => boot
  end.

Definition some_requests : list (option Request) :=
  [ Some (mkRequest HTTP_POST "/toggle" []); None;
    Some (mkRequest HTTP_POST "/send_lower_power" []);
    Some (mkRequest HTTP_GET "/favicon.ico" []);
    Some (mkRequest HTTP_POST "/set_state" [("state", "off")]);
    Some (mkRequest HTTP_GET "/" []) ].

(** A client waiting with a POST for [uri]. *)
Definition POST (uri : string) (args : list (string * string)) : option Request :=
  Some (mkRequest HTTP_POST uri args).

Definition malformed_request_world : World :=
  with_currentArgs [("State", "on"); ("state", "ON")] (with_isFanOn true boot).

Definition sync_on_world : World :=
  with_currentArgs [("state", "on")] boot.

(** ** Reference behaviour, request by request

    What one [loop] iteration is meant to do, written from the outside
    (method, path and arguments of the waiting request) without going
    through the route table or the handlers; the sketch is compared with
    these below. *)

(** A client is waiting. *)
Definition is_waiting (i : option Request) : bool :=
  match i with
  | Some _ => true
  | None => false
  end.

Definition is_post (r : Request) (uri : string) : bool :=
  HTTPMethod_eqb (req_method r) HTTP_POST && String.eqb (req_uri r) uri.

(** The IR frames a request stands for. *)
Definition frames_for (i : option Request) : list (decode_type_t * Z * Z) :=
  match i with
  | None => []
  | Some r =>
      if is_post r "/toggle" then [(MIDEA24, 0x80C0C0, 24)]
      else if is_post r "/send_add_power" then [(MIDEA24, 0x80B0B0, 24)]
      else if is_post r "/send_lower_power" then [(MIDEA24, 0x808888, 24)]
      else []
  end.

(** The flag after a request, given the flag before it. *)
Definition next_state (on : bool) (i : option Request) : bool :=
  match i with
  | None => on
  | Some r =>
      if is_post r "/toggle" then negb on
      else if is_post r "/set_state" then
        if existsb (fun kv => String.eqb (fst kv) "state") (req_args r) then
          if String.eqb (lookup_arg "state" (req_args r)) "on" then true
          else if String.eqb (lookup_arg "state" (req_args r)) "off" then false
          else on
        else on
      else on
  end.

(** The three shapes of response the sketch can produce: the page, the
    redirect with its single header, the server's own 404. *)
Definition well_formed_response (e : Event) : bool :=
  match e with
  | HttpResponse 200 (Some ct) [] _ => String.eqb ct "text/html"
  | HttpResponse 303 None [(k, v)] EmptyString =>
      String.eqb k "Location" && String.eqb v "/"
  | HttpResponse 404 _ [] _ => true
  | _ => false
  end.

(** The fan states written to the serial log: the [%s] argument of every
    [printf] that has a single string argument. *)
Fixpoint logged_states (t : list Event) : list string :=
  match t with
  | [] => []
  | SerialPrintf _ [ArgStr s] :: rest => s :: logged_states rest
  | _ :: rest => logged_states rest
  end.

(** How many times [needle] occurs in [hay] (overlaps counted). *)
Fixpoint occurrences (needle hay : string) : nat :=
  ((if String.prefix needle hay then 1 else 0) +
   match hay with
   | EmptyString => 0
   | String _ rest => occurrences needle rest
   end)%nat.

(** [n] rounds of the waiting loop of [setup], as events. *)
Fixpoint waiting_dots (n : nat) : list Event :=
  match n with
  | O => []
  | S n' => Delay 500 :: SerialPrint "." :: waiting_dots n'
  end.

Definition radio_never_up : Radio :=
  {| WiFi_status := fun _ => WL_DISCONNECTED; WiFi_localIP := EmptyString |}.

Definition fan_on_world : World := with_isFanOn true boot.

(** * Properties *)

(** ** Traces *)

Lemma ir_sent_app (s t : list Event) : ir_sent (s ++ t) = ir_sent s ++ ir_sent t.
Proof.
  induction s as [|e s IH]; simpl; [reflexivity|].
  destruct e; simpl; rewrite IH; reflexivity.
Qed.

Lemma skipn_length_app {A} (s t : list A) : skipn (List.length s) (s ++ t) = t.
Proof. induction s as [|a s IH]; simpl; auto. Qed.

Lemma emitted_app {A} (m : M A) (w : World) (t : list Event) :
  trace (exec m w) = trace w ++ t -> emitted m w = t.
Proof. unfold emitted. intros ->. apply skipn_length_app. Qed.

(** ** What each function does to the globals *)

Ltac run_sketch :=
  unfold exec, handleToggle, handleSetState, handleSendAddPower,
    handleSendLowerPower, handleRoot, sendIRSignal, bind, ret,
    Serial_printf, Serial_println, Serial_print, Serial_begin, delay,
    irsend_begin, irsend_send, WiFi_begin, server_begin, server_on,
    server_sendHeader, server_send, get_isFanOn, set_isFanOn, emit;
  cbn [snd fst isFanOn handlers currentArgs responseHeaders trace
       with_isFanOn with_handlers with_currentArgs with_responseHeaders
       with_trace];
  rewrite <- ?app_assoc; cbn [app].

Lemma sendIRSignal_exec (code bits : Z) (w : World) :
  exec (sendIRSignal code bits) w =
  with_trace
    (trace w ++
     [ SerialPrintf
         ("Sending IR Signal -> Protocol: MIDEA, Code: 0x%06X, Bits: %d" ++ LF)
         [ArgInt code; ArgInt bits];
       IRSend MIDEA24 (code mod 2 ^ 64) (bits mod 2 ^ 16);
       SerialPrintln "Signal sent successfully." ]) w.
Proof. run_sketch. reflexivity. Qed.

Lemma handleToggle_exec (w : World) :
  exec handleToggle w =
  {| isFanOn := negb (isFanOn w);
     handlers := handlers w;
     currentArgs := currentArgs w;
     responseHeaders := [];
     trace :=
       trace w ++
       [ SerialPrintf
           ("Sending IR Signal -> Protocol: MIDEA, Code: 0x%06X, Bits: %d" ++ LF)
           [ArgInt 0x80C0C0; ArgInt 24];
         IRSend MIDEA24 0x80C0C0 24;
         SerialPrintln "Signal sent successfully.";
         SerialPrintf ("New fan state: %s" ++ LF) [ArgStr (onoff (negb (isFanOn w)))];
         HttpResponse 303 None (responseHeaders w ++ [("Location", "/")]) EmptyString ] |}.
Proof. run_sketch. reflexivity. Qed.

Lemma handleSendAddPower_exec (w : World) :
  exec handleSendAddPower w =
  {| isFanOn := isFanOn w;
     handlers := handlers w;
     currentArgs := currentArgs w;
     responseHeaders := [];
     trace :=
       trace w ++
       [ SerialPrintf
           ("Sending IR Signal -> Protocol: MIDEA, Code: 0x%06X, Bits: %d" ++ LF)
           [ArgInt 0x80B0B0; ArgInt 24];
         IRSend MIDEA24 0x80B0B0 24;
         SerialPrintln "Signal sent successfully.";
         HttpResponse 303 None (responseHeaders w ++ [("Location", "/")]) EmptyString ] |}.
Proof. run_sketch. reflexivity. Qed.

Lemma handleSendLowerPower_exec (w : World) :
  exec handleSendLowerPower w =
  {| isFanOn := isFanOn w;
     handlers := handlers w;
     currentArgs := currentArgs w;
     responseHeaders := [];
     trace :=
       trace w ++
       [ SerialPrintf
           ("Sending IR Signal -> Protocol: MIDEA, Code: 0x%06X, Bits: %d" ++ LF)
           [ArgInt 0x808888; ArgInt 24];
         IRSend MIDEA24 0x808888 24;
         SerialPrintln "Signal sent successfully.";
         HttpResponse 303 None (responseHeaders w ++ [("Location", "/")]) EmptyString ] |}.
Proof. run_sketch. reflexivity. Qed.

(** The flag [handleSetState] leaves behind, read off its branches. *)
Lemma handleSetState_exec (w : World) :
  let b :=
    if hasArg w "state" then
      if String.eqb (arg w "state") "on" then true
      else if String.eqb (arg w "state") "off" then false
      else isFanOn w
    else isFanOn w in
  exec handleSetState w =
  {| isFanOn := b;
     handlers := handlers w;
     currentArgs := currentArgs w;
     responseHeaders := [];
     trace :=
       trace w ++
       (if hasArg w "state"
        then [SerialPrintf ("State manually synced to: %s" ++ LF) [ArgStr (onoff b)]]
        else []) ++
       [HttpResponse 303 None (responseHeaders w ++ [("Location", "/")]) EmptyString] |}.
Proof.
  cbv zeta.
  unfold exec, handleSetState, bind, hasArg, arg, server_hasArg, server_arg.
  cbn [fst snd].
  destruct (existsb _ (currentArgs w)).
  - destruct (String.eqb (lookup_arg "state" (currentArgs w)) "on");
      [|destruct (String.eqb (lookup_arg "state" (currentArgs w)) "off")];
      run_sketch; reflexivity.
  - run_sketch. reflexivity.
Qed.

Lemma handleRoot_exec (w : World) :
  exec handleRoot w =
  {| isFanOn := isFanOn w;
     handlers := handlers w;
     currentArgs := currentArgs w;
     responseHeaders := [];
     trace :=
       trace w ++
       [HttpResponse 200 (Some "text/html") (responseHeaders w)
          (fst (handleRoot_html w))] |}.
Proof. unfold handleRoot_html. run_sketch. reflexivity. Qed.

(** The page depends on the globals through [isFanOn] alone. *)
Lemma handleRoot_html_flag (w w' : World) :
  isFanOn w = isFanOn w' -> fst (handleRoot_html w) = fst (handleRoot_html w').
Proof.
  intros H. unfold handleRoot_html, bind, get_isFanOn, ret. cbn [fst snd].
  rewrite H. reflexivity.
Qed.

(** ** Redirects *)

Lemma is_redirect_location (hs : list (string * string)) :
  is_redirect_to_root
    (HttpResponse 303 None (hs ++ [("Location", "/")]) EmptyString) = true.
Proof.
  cbn [is_redirect_to_root]. rewrite existsb_app. apply orb_true_iff. right.
  reflexivity.
Qed.

Lemma ends_with_redirect_snoc (pre : list Event) (hs : list (string * string)) :
  ends_with_redirect
    (pre ++ [HttpResponse 303 None (hs ++ [("Location", "/")]) EmptyString]) = true.
Proof.
  unfold ends_with_redirect. rewrite rev_app_distr. cbn [rev app].
  apply is_redirect_location.
Qed.

(** ** [setup] *)

Lemma wl_status_eqb_eq (a b : wl_status_t) : wl_status_eqb a b = true <-> a = b.
Proof. destruct a, b; cbn; split; intros H; try reflexivity; discriminate H. Qed.

(** One round of the waiting loop touches the trace only, and sends no IR. *)
Lemma wait_for_wifi_frame (fuel : nat) (radio : Radio) :
  forall (k : nat) (w w' : World),
    wait_for_wifi fuel radio k w = Some w' ->
    isFanOn w' = isFanOn w /\ handlers w' = handlers w /\
    currentArgs w' = currentArgs w /\ responseHeaders w' = responseHeaders w /\
    ir_sent (trace w') = ir_sent (trace w).
Proof.
  induction fuel as [|fuel IH]; intros k w w' H; cbn [wait_for_wifi] in H.
  - discriminate H.
  - destruct (wl_status_eqb (WiFi_status radio k) WL_CONNECTED).
    + injection H as <-. repeat split.
    + apply IH in H. destruct H as (H1 & H2 & H3 & H4 & H5).
      revert H1 H2 H3 H4 H5. run_sketch. intros -> -> -> -> ->.
      repeat split. rewrite !ir_sent_app, !app_nil_r. reflexivity.
Qed.

(** The waiting loop ends as soon as some poll reports the connection. *)
Lemma wait_for_wifi_returns (radio : Radio) (n : nat) :
  forall (k : nat) (w : World),
    WiFi_status radio (k + n) = WL_CONNECTED ->
    exists w', wait_for_wifi (S n) radio k w = Some w'.
Proof.
  induction n as [|n IH]; intros k w H.
  - rewrite Nat.add_0_r in H. cbn [wait_for_wifi]. rewrite H. cbn. eauto.
  - cbn [wait_for_wifi].
    destruct (wl_status_eqb (WiFi_status radio k) WL_CONNECTED); [eauto|].
    apply IH. rewrite <- H. f_equal. lia.
Qed.

Lemma setup_returns (radio : Radio) (n : nat) (w : World) :
  WiFi_status radio n = WL_CONNECTED ->
  exists w', setup (S n) radio w = Some w'.
Proof.
  intros H. unfold setup.
  destruct (wait_for_wifi_returns radio n 0 (exec setup_prologue w) H) as [w1 ->].
  eauto.
Qed.

(** What [setup] leaves in the globals, whenever it returns. *)
Lemma setup_globals (fuel : nat) (radio : Radio) (w w' : World) :
  setup fuel radio w = Some w' ->
  isFanOn w' = isFanOn w /\
  handlers w' = handlers w ++ five_routes /\
  currentArgs w' = currentArgs w /\
  responseHeaders w' = responseHeaders w /\
  ir_sent (trace w') = ir_sent (trace w).
Proof.
  unfold setup. intros H.
  destruct (wait_for_wifi fuel radio 0 (exec setup_prologue w)) as [w1|] eqn:E;
    [|discriminate H].
  injection H as <-.
  apply wait_for_wifi_frame in E. destruct E as (H1 & H2 & H3 & H4 & H5).
  revert H1 H2 H3 H4 H5.
  unfold setup_epilogue, setup_prologue. run_sketch.
  intros -> -> -> -> H5. repeat split.
  rewrite !ir_sent_app, H5, !ir_sent_app. cbn [ir_sent]. rewrite !app_nil_r.
  reflexivity.
Qed.

(** ** The polling loop *)

Ltac fixed_frames :=
  cbn [ir_sent app];
  repeat (constructor; [cbv [fixed_frame]; repeat split; auto|]);
  try constructor.

(** A handler only appends to the trace, sends fixed frames only, and
    leaves the routes alone. *)
Lemma run_handler_step (fn : THandlerFunction) (w : World) :
  exists t,
    trace (exec (run_handler fn) w) = trace w ++ t /\
    Forall fixed_frame (ir_sent t) /\
    handlers (exec (run_handler fn) w) = handlers w.
Proof.
  destruct fn; cbn [run_handler].
  - rewrite handleRoot_exec. eexists. split; [reflexivity|].
    split; [fixed_frames|reflexivity].
  - rewrite handleToggle_exec. eexists. split; [reflexivity|].
    split; [fixed_frames|reflexivity].
  - pose proof (handleSetState_exec w) as E. cbv zeta in E. rewrite E.
    eexists. split; [reflexivity|].
    split; [destruct (hasArg w "state"); fixed_frames|reflexivity].
  - rewrite handleSendAddPower_exec. eexists. split; [reflexivity|].
    split; [fixed_frames|reflexivity].
  - rewrite handleSendLowerPower_exec. eexists. split; [reflexivity|].
    split; [fixed_frames|reflexivity].
Qed.

Lemma loop_step (i : option Request) (w : World) :
  exists t,
    trace (exec (loop i) w) = trace w ++ t /\
    Forall fixed_frame (ir_sent t) /\
    handlers (exec (loop i) w) = handlers w.
Proof.
  destruct i as [r|].
  - unfold loop, server_handleClient, exec.
    cbn [handlers with_currentArgs].
    destruct (find _ (handlers w)) as [[[u m] fn]|].
    + apply (run_handler_step fn (with_currentArgs (req_args r) w)).
    + exists [HttpResponse 404 (Some "text/plain") (responseHeaders w)
                ("Not found: " ++ req_uri r)].
      split; [reflexivity|]. split; [fixed_frames|reflexivity].
  - exists []. cbn. rewrite app_nil_r. split; [reflexivity|].
    split; [constructor|reflexivity].
Qed.

Lemma run_loop_steps (ins : list (option Request)) :
  forall w : World,
    exists t,
      trace (run_loop ins w) = trace w ++ t /\
      Forall fixed_frame (ir_sent t) /\
      handlers (run_loop ins w) = handlers w.
Proof.
  induction ins as [|i ins IH]; intros w; cbn [run_loop].
  - exists []. rewrite app_nil_r. repeat split. constructor.
  - destruct (loop_step i w) as (t1 & E1 & F1 & H1).
    destruct (IH (exec (loop i) w)) as (t2 & E2 & F2 & H2).
    exists (t1 ++ t2). rewrite E2, E1, app_assoc. split; [reflexivity|].
    split; [|congruence].
    rewrite ir_sent_app. apply Forall_app. split; assumption.
Qed.

(** Which requests the registered routes accept. *)
Lemma five_routes_accept (m : HTTPMethod) (u : string) :
  (exists h, find (canHandle m u) five_routes = Some h) <->
  In (u, m)
     [ ("/", HTTP_GET); ("/toggle", HTTP_POST); ("/set_state", HTTP_POST);
       ("/send_add_power", HTTP_POST); ("/send_lower_power", HTTP_POST) ].
Proof.
  split.
  - intros [h H]. unfold five_routes in H. cbn -[String.eqb] in H.
    destruct m; cbn -[String.eqb] in H; try discriminate H;
      repeat match type of H with
             | context [String.eqb ?s u] =>
                 destruct (String.eqb_spec s u) as [<- | _];
                 [cbn; tauto | cbn -[String.eqb] in H]
             end;
      discriminate H.
  - cbn. intros H.
    repeat (destruct H as [H | H]; [injection H as <- <-; eexists; reflexivity|]).
    contradiction.
Qed.

(** A request that finds a route runs that route's handler, with the
    request's arguments installed. *)
Lemma loop_runs_route (r : Request) (w : World)
    (u : string) (m : HTTPMethod) (fn : THandlerFunction) :
  find (canHandle (req_method r) (req_uri r)) (handlers w) = Some (u, m, fn) ->
  exec (loop (Some r)) w = exec (run_handler fn) (with_currentArgs (req_args r) w) /\
  emitted (loop (Some r)) w =
    emitted (run_handler fn) (with_currentArgs (req_args r) w).
Proof.
  intros H.
  assert (E : exec (loop (Some r)) w =
              exec (run_handler fn) (with_currentArgs (req_args r) w)).
  { unfold loop, server_handleClient, exec. cbn [handlers with_currentArgs].
    rewrite H. reflexivity. }
  split; [exact E|]. unfold emitted. rewrite E. reflexivity.
Qed.

(** After [setup], however many requests have been served, the routes are
    the five that [setup] registered. *)
Lemma served_handlers (fuel : nat) (radio : Radio) (w0 : World)
    (ins : list (option Request)) :
  setup fuel radio boot = Some w0 ->
  handlers (run_loop ins w0) = five_routes.
Proof.
  intros H. apply setup_globals in H. destruct H as (_ & H & _).
  destruct (run_loop_steps ins w0) as (_ & _ & _ & ->). exact H.
Qed.

(** * The claims *)

(** C1. Handling a POST to /toggle sends exactly one IR frame, the 24-bit
    code 0x80C0C0, and replaces isFanOn by its negation: so does
    handleToggle from any globals, and so does a loop iteration that finds
    that request waiting, at any time after setup. *)
Theorem toggle_sends_once_and_flips
    (v : World) (fuel : nat) (radio : Radio) (w0 : World)
    (ins : list (option Request)) (args : list (string * string)) :
  setup fuel radio boot = Some w0 ->
  (ir_sent (emitted handleToggle v) = [(MIDEA24, 0x80C0C0, 24)] /\
   isFanOn (exec handleToggle v) = negb (isFanOn v)) /\
  (ir_sent (emitted (loop (POST "/toggle" args)) (run_loop ins w0)) =
     [(MIDEA24, 0x80C0C0, 24)] /\
   isFanOn (exec (loop (POST "/toggle" args)) (run_loop ins w0)) =
     negb (isFanOn (run_loop ins w0))).
Proof.
  intros Hs.
  assert (Hh : forall w,
             ir_sent (emitted handleToggle w) = [(MIDEA24, 0x80C0C0, 24)] /\
             isFanOn (exec handleToggle w) = negb (isFanOn w)).
  { intros w. split.
    - erewrite emitted_app; [|rewrite handleToggle_exec; reflexivity].
      reflexivity.
    - rewrite handleToggle_exec. reflexivity. }
  split; [apply Hh|].
  destruct (loop_runs_route (mkRequest HTTP_POST "/toggle" args)
              (run_loop ins w0) "/toggle" HTTP_POST HandleToggle) as [E1 E2].
  { rewrite (served_handlers fuel radio w0 ins Hs). reflexivity. }
  unfold POST. rewrite E1, E2. cbn [run_handler req_args].
  destruct (Hh (with_currentArgs args (run_loop ins w0))) as [A B].
  split; [exact A|exact B].
Qed.

Lemma toggle_sends_once_and_flips_witness :
  (ir_sent (emitted handleToggle boot) = [(MIDEA24, 0x80C0C0, 24)] /\
   isFanOn (exec handleToggle boot) = true) /\
  (ir_sent (emitted (loop (POST "/toggle" [])) (run_loop some_requests after_setup)) =
     [(MIDEA24, 0x80C0C0, 24)] /\
   isFanOn (exec (loop (POST "/toggle" [])) (run_loop some_requests after_setup)) =
     negb (isFanOn (run_loop some_requests after_setup))).
Proof.
  apply (toggle_sends_once_and_flips boot 1 radio_up_at_once after_setup
           some_requests []).
  reflexivity.
Defined.

(** C2, as stated, fails at the root route: started from the boot globals,
    handleRoot writes one response, the 200 page, and no redirect at all. *)
Lemma handleRoot_does_not_redirect :
  ends_with_redirect (emitted (run_handler HandleRoot) boot) = false /\
  existsb is_redirect_to_root (emitted (run_handler HandleRoot) boot) = false /\
  responses (emitted (run_handler HandleRoot) boot) =
    [HttpResponse 200 (Some "text/html") [] (fst (handleRoot_html boot))].
Proof. vm_compute. repeat split. Qed.

(** C2, amended. Each of the four POST handlers (toggle, set_state,
    send_add_power, send_lower_power) writes exactly one response, as its
    last event: the 303 redirect carrying Location "/", after at most one IR
    frame. handleRoot writes exactly one response too, the 200 text/html
    page, which is not a redirect, and sends no IR frame. *)
Theorem handlers_final_response (fn : THandlerFunction) (w : World) :
  responses (emitted (run_handler fn) w) =
    [ match fn with
      | HandleRoot =>
          HttpResponse 200 (Some "text/html") (responseHeaders w)
            (fst (handleRoot_html w))
      | _ =>
          HttpResponse 303 None (responseHeaders w ++ [("Location", "/")])
            EmptyString
      end ] /\
  ends_with_redirect (emitted (run_handler fn) w) =
    match fn with HandleRoot => false | _ => true end /\
  (List.length (ir_sent (emitted (run_handler fn) w)) <=
     match fn with HandleRoot => 0 | _ => 1 end)%nat.
Proof.
  destruct fn; cbn [run_handler].
  - erewrite emitted_app; [|rewrite handleRoot_exec; reflexivity].
    repeat split. cbn. lia.
  - erewrite emitted_app; [|rewrite handleToggle_exec; reflexivity].
    split; [reflexivity|]. split; [|cbn; lia].
    apply (ends_with_redirect_snoc [_; _; _; _]).
  - pose proof (handleSetState_exec w) as E. cbv zeta in E.
    erewrite emitted_app; [|rewrite E; reflexivity].
    split; [destruct (hasArg w "state"); reflexivity|].
    split; [apply ends_with_redirect_snoc|].
    destruct (hasArg w "state"); cbn; lia.
  - erewrite emitted_app; [|rewrite handleSendAddPower_exec; reflexivity].
    split; [reflexivity|]. split; [|cbn; lia].
    apply (ends_with_redirect_snoc [_; _; _]).
  - erewrite emitted_app; [|rewrite handleSendLowerPower_exec; reflexivity].
    split; [reflexivity|]. split; [|cbn; lia].
    apply (ends_with_redirect_snoc [_; _; _]).
Qed.

(** C3. When the request has no "state" argument, or its value is neither
    "on" nor "off", handleSetState leaves isFanOn as it was, and the only
    response it writes, its last event, is the redirect to the root page. *)
Theorem handleSetState_ignores_malformed (w : World) :
  hasArg w "state" = false \/
  (String.eqb (arg w "state") "on" = false /\
   String.eqb (arg w "state") "off" = false) ->
  isFanOn (exec handleSetState w) = isFanOn w /\
  ends_with_redirect (emitted handleSetState w) = true /\
  responses (emitted handleSetState w) =
    [HttpResponse 303 None (responseHeaders w ++ [("Location", "/")]) EmptyString].
Proof.
  intros H.
  pose proof (handleSetState_exec w) as E. cbv zeta in E.
  split; [|split].
  - rewrite E. cbn [isFanOn].
    destruct H as [-> | [-> ->]]; [reflexivity|].
    destruct (hasArg w "state"); reflexivity.
  - erewrite emitted_app; [|rewrite E; reflexivity].
    apply ends_with_redirect_snoc.
  - erewrite emitted_app; [|rewrite E; reflexivity].
    destruct (hasArg w "state"); reflexivity.
Qed.

Lemma handleSetState_ignores_malformed_witness :
  isFanOn (exec handleSetState malformed_request_world) = true /\
  ends_with_redirect (emitted handleSetState malformed_request_world) = true /\
  responses (emitted handleSetState malformed_request_world) =
    [HttpResponse 303 None [("Location", "/")] EmptyString].
Proof.
  apply (handleSetState_ignores_malformed malformed_request_world).
  right. split; reflexivity.
Defined.

(** C4. handleRoot, handleSendAddPower and handleSendLowerPower leave
    isFanOn unchanged from every starting value; handleToggle and
    handleSetState are the handlers that can change it. *)
Theorem only_toggle_and_sync_mutate :
  (forall w,
     isFanOn (exec handleRoot w) = isFanOn w /\
     isFanOn (exec handleSendAddPower w) = isFanOn w /\
     isFanOn (exec handleSendLowerPower w) = isFanOn w) /\
  (exists w, isFanOn (exec handleToggle w) <> isFanOn w) /\
  (exists w, isFanOn (exec handleSetState w) <> isFanOn w).
Proof.
  split; [|split].
  - intros w.
    rewrite handleRoot_exec, handleSendAddPower_exec, handleSendLowerPower_exec.
    repeat split.
  - exists boot. vm_compute. discriminate.
  - exists (with_currentArgs [("state", "on")] boot). vm_compute. discriminate.
Qed.

(** C5. sendIRSignal hands its code and bit count, unchanged, to
    irsend.send with protocol MIDEA24; and from power-up on, through setup
    and any sequence of loop iterations, every frame sent is one of
    0x80C0C0, 0x80B0B0, 0x808888 with 24 bits under MIDEA24. *)
Theorem ir_codes_sent_verbatim
    (code bits : Z) (v : World)
    (fuel : nat) (radio : Radio) (w : World) (ins : list (option Request)) :
  is_uint32 code -> is_uint8 bits ->
  setup fuel radio boot = Some w ->
  ir_sent (emitted (sendIRSignal code bits) v) = [(MIDEA24, code, bits)] /\
  Forall fixed_frame (ir_sent (trace (run_loop ins w))).
Proof.
  intros Hc Hb Hs. split.
  - erewrite emitted_app; [|rewrite sendIRSignal_exec; reflexivity].
    cbn [ir_sent]. unfold is_uint32 in Hc. unfold is_uint8 in Hb.
    rewrite !Z.mod_small by lia. reflexivity.
  - apply setup_globals in Hs. destruct Hs as (_ & _ & _ & _ & Hir).
    destruct (run_loop_steps ins w) as (t & E & F & _).
    rewrite E, ir_sent_app, Hir. cbn [boot trace ir_sent app]. exact F.
Qed.

Lemma ir_codes_sent_verbatim_witness :
  ir_sent (emitted (sendIRSignal 0x80B0B0 24) boot) = [(MIDEA24, 0x80B0B0, 24)] /\
  Forall fixed_frame
    (ir_sent
       (trace (run_loop some_requests after_setup))).
Proof.
  apply (ir_codes_sent_verbatim 0x80B0B0 24 boot 1 radio_up_at_once).
  - unfold is_uint32. lia.
  - unfold is_uint8. lia.
  - reflexivity.
Defined.

(** C6. Once WiFi reports the connection, setup returns, and the routes it
    has registered are exactly five: "/" on GET, and "/toggle",
    "/set_state", "/send_add_power", "/send_lower_power" on POST, each
    bound to its handler; no other path or method reaches a handler. *)
Theorem setup_registers_five_routes (radio : Radio) (n : nat) :
  WiFi_status radio n = WL_CONNECTED ->
  (exists w, setup (S n) radio boot = Some w) /\
  (forall fuel w,
     setup fuel radio boot = Some w ->
     handlers w =
       [ ("/", HTTP_GET, HandleRoot);
         ("/toggle", HTTP_POST, HandleToggle);
         ("/set_state", HTTP_POST, HandleSetState);
         ("/send_add_power", HTTP_POST, HandleSendAddPower);
         ("/send_lower_power", HTTP_POST, HandleSendLowerPower) ] /\
     forall m u,
       (exists h, find (canHandle m u) (handlers w) = Some h) <->
       In (u, m)
          [ ("/", HTTP_GET); ("/toggle", HTTP_POST); ("/set_state", HTTP_POST);
            ("/send_add_power", HTTP_POST); ("/send_lower_power", HTTP_POST) ]).
Proof.
  intros H. split; [apply setup_returns; exact H|].
  intros fuel w Hs. apply setup_globals in Hs.
  destruct Hs as (_ & Hh & _). cbn [boot handlers app] in Hh.
  split; [exact Hh|].
  intros m u. rewrite Hh. apply five_routes_accept.
Qed.

Lemma setup_registers_five_routes_witness :
  (exists w, setup 3 radio_up_third_poll boot = Some w) /\
  (forall fuel w,
     setup fuel radio_up_third_poll boot = Some w ->
     handlers w =
       [ ("/", HTTP_GET, HandleRoot);
         ("/toggle", HTTP_POST, HandleToggle);
         ("/set_state", HTTP_POST, HandleSetState);
         ("/send_add_power", HTTP_POST, HandleSendAddPower);
         ("/send_lower_power", HTTP_POST, HandleSendLowerPower) ] /\
     forall m u,
       (exists h, find (canHandle m u) (handlers w) = Some h) <->
       In (u, m)
          [ ("/", HTTP_GET); ("/toggle", HTTP_POST); ("/set_state", HTTP_POST);
            ("/send_add_power", HTTP_POST); ("/send_lower_power", HTTP_POST) ]).
Proof.
  apply (setup_registers_five_routes radio_up_third_poll 2).
  reflexivity.
Defined.

(** C7. There is no retry: one POST to /send_add_power or to
    /send_lower_power sends exactly one IR frame, the matching power code,
    never none and never two; this holds of the two handlers from any
    globals and of a loop iteration serving that request after setup. *)
Theorem power_requests_send_exactly_once
    (v : World) (fuel : nat) (radio : Radio) (w0 : World)
    (ins : list (option Request)) (args : list (string * string)) :
  setup fuel radio boot = Some w0 ->
  (ir_sent (emitted handleSendAddPower v) = [(MIDEA24, 0x80B0B0, 24)] /\
   ir_sent (emitted handleSendLowerPower v) = [(MIDEA24, 0x808888, 24)]) /\
  (ir_sent (emitted (loop (POST "/send_add_power" args)) (run_loop ins w0)) =
     [(MIDEA24, 0x80B0B0, 24)] /\
   ir_sent (emitted (loop (POST "/send_lower_power" args)) (run_loop ins w0)) =
     [(MIDEA24, 0x808888, 24)]).
Proof.
  intros Hs.
  assert (Ha : forall w,
             ir_sent (emitted handleSendAddPower w) = [(MIDEA24, 0x80B0B0, 24)]).
  { intros w.
    erewrite emitted_app; [|rewrite handleSendAddPower_exec; reflexivity].
    reflexivity. }
  assert (Hl : forall w,
             ir_sent (emitted handleSendLowerPower w) = [(MIDEA24, 0x808888, 24)]).
  { intros w.
    erewrite emitted_app; [|rewrite handleSendLowerPower_exec; reflexivity].
    reflexivity. }
  pose proof (served_handlers fuel radio w0 ins Hs) as Hr.
  split; [split; [apply Ha|apply Hl]|]. split.
  - destruct (loop_runs_route (mkRequest HTTP_POST "/send_add_power" args)
                (run_loop ins w0) "/send_add_power" HTTP_POST HandleSendAddPower)
      as [_ E]; [rewrite Hr; reflexivity|].
    unfold POST. rewrite E. exact (Ha _).
  - destruct (loop_runs_route (mkRequest HTTP_POST "/send_lower_power" args)
                (run_loop ins w0) "/send_lower_power" HTTP_POST HandleSendLowerPower)
      as [_ E]; [rewrite Hr; reflexivity|].
    unfold POST. rewrite E. exact (Hl _).
Qed.

Lemma power_requests_send_exactly_once_witness :
  (ir_sent (emitted handleSendAddPower boot) = [(MIDEA24, 0x80B0B0, 24)] /\
   ir_sent (emitted handleSendLowerPower boot) = [(MIDEA24, 0x808888, 24)]) /\
  (ir_sent (emitted (loop (POST "/send_add_power" []))
              (run_loop some_requests after_setup)) =
     [(MIDEA24, 0x80B0B0, 24)] /\
   ir_sent (emitted (loop (POST "/send_lower_power" []))
              (run_loop some_requests after_setup)) =
     [(MIDEA24, 0x808888, 24)]).
Proof.
  apply (power_requests_send_exactly_once boot 1 radio_up_at_once after_setup
           some_requests []).
  reflexivity.
Defined.

(** C8. The flag starts false and setup does not touch it: when setup has
    returned and no request has been handled yet, isFanOn is false, and the
    page handleRoot serves shows "Current State: OFF" with the "Turn ON"
    button, not the "Turn OFF" one. *)
Theorem starts_off (fuel : nat) (radio : Radio) (w : World) :
  setup fuel radio boot = Some w ->
  isFanOn boot = false /\
  isFanOn w = false /\
  exists html,
    responses (emitted handleRoot w) =
      [HttpResponse 200 (Some "text/html") [] html] /\
    contains "<p>Current State: <b>OFF</b></p>" html = true /\
    contains "<button type='submit' class='btn-main'>Turn ON</button>" html = true /\
    contains "<b>ON</b>" html = false /\
    contains "Turn OFF" html = false.
Proof.
  intros Hs. apply setup_globals in Hs. destruct Hs as (Hf & _ & _ & Hr & _).
  cbn [boot isFanOn responseHeaders] in Hf, Hr.
  split; [reflexivity|]. split; [exact Hf|].
  exists (fst (handleRoot_html boot)). split.
  - erewrite emitted_app; [|rewrite handleRoot_exec; reflexivity].
    cbn [responses]. rewrite Hr.
    rewrite (handleRoot_html_flag w boot) by exact Hf. reflexivity.
  - repeat split; vm_compute; reflexivity.
Qed.

Lemma starts_off_witness :
  isFanOn boot = false /\
  isFanOn after_setup = false /\
  exists html,
    responses (emitted handleRoot after_setup) =
      [HttpResponse 200 (Some "text/html") [] html] /\
    contains "<p>Current State: <b>OFF</b></p>" html = true /\
    contains "<button type='submit' class='btn-main'>Turn ON</button>" html = true /\
    contains "<b>ON</b>" html = false /\
    contains "Turn OFF" html = false.
Proof.
  apply (starts_off 1 radio_up_at_once after_setup).
  reflexivity.
Defined.

(** C9. handleSetState never sends an IR frame, whatever the arguments of
    the request. *)
Theorem handleSetState_sends_no_ir (w : World) :
  ir_sent (emitted handleSetState w) = [].
Proof.
  pose proof (handleSetState_exec w) as E. cbv zeta in E.
  erewrite emitted_app; [|rewrite E; reflexivity].
  destruct (hasArg w "state"); reflexivity.
Qed.

(** C10. Two /toggle requests in a row bring isFanOn back to where it was,
    from either value; two /set_state requests carrying the same valid
    "state" value leave isFanOn as one of them does. *)
Theorem toggle_involutive_sync_idempotent :
  (forall w, isFanOn (exec handleToggle (exec handleToggle w)) = isFanOn w) /\
  (forall w,
     hasArg w "state" = true ->
     arg w "state" = "on" \/ arg w "state" = "off" ->
     isFanOn (exec handleSetState (exec handleSetState w)) =
       isFanOn (exec handleSetState w) /\
     isFanOn (exec handleSetState w) = String.eqb (arg w "state") "on").
Proof.
  split.
  - intros w. rewrite !handleToggle_exec. cbn [isFanOn]. apply negb_involutive.
  - intros w Hhas Hval.
    pose proof (handleSetState_exec w) as E. cbv zeta in E.
    pose proof (handleSetState_exec (exec handleSetState w)) as E2.
    cbv zeta in E2.
    assert (Hargs : currentArgs (exec handleSetState w) = currentArgs w)
      by (rewrite E; reflexivity).
    unfold hasArg, arg, server_hasArg, server_arg in E2. cbn [fst] in E2.
    rewrite Hargs in E2.
    change (existsb (fun kv => String.eqb (fst kv) "state") (currentArgs w))
      with (hasArg w "state") in E2.
    change (lookup_arg "state" (currentArgs w)) with (arg w "state") in E2.
    rewrite E2. cbn [isFanOn]. rewrite E. cbn [isFanOn]. rewrite Hhas.
    destruct Hval as [-> | ->]; split; reflexivity.
Qed.

Lemma toggle_involutive_sync_idempotent_witness :
  isFanOn (exec handleSetState (exec handleSetState sync_on_world)) =
    isFanOn (exec handleSetState sync_on_world) /\
  isFanOn (exec handleSetState sync_on_world) = true.
Proof.
  apply (proj2 toggle_involutive_sync_idempotent sync_on_world).
  - reflexivity.
  - left. reflexivity.
Defined.

(** * Further properties of the sketch *)

(** ** The route table, case by case *)

Lemma lookup_arg_nonempty (name : string) (args : list (string * string)) :
  lookup_arg name args <> EmptyString ->
  existsb (fun kv => String.eqb (fst kv) name) args = true.
Proof.
  induction args as [|[k v] args IH]; cbn [lookup_arg existsb fst].
  - intros H. contradiction H. reflexivity.
  - destruct (String.eqb k name); [reflexivity|]. exact IH.
Qed.

Ltac split_uri u s :=
  let E := fresh "E" in
  destruct (String.eqb u s) eqn:E;
  [ apply String.eqb_eq in E; subst u
  | try rewrite (String.eqb_sym s u), E ].

(** Which route a request finds, against the tests of [is_post]. *)
Lemma route_cases (r : Request) :
  let found := find (canHandle (req_method r) (req_uri r)) five_routes in
  (is_post r "/toggle" = true /\
   found = Some ("/toggle", HTTP_POST, HandleToggle)) \/
  (is_post r "/toggle" = false /\ is_post r "/set_state" = true /\
   is_post r "/send_add_power" = false /\ is_post r "/send_lower_power" = false /\
   found = Some ("/set_state", HTTP_POST, HandleSetState)) \/
  (is_post r "/toggle" = false /\ is_post r "/set_state" = false /\
   is_post r "/send_add_power" = true /\
   found = Some ("/send_add_power", HTTP_POST, HandleSendAddPower)) \/
  (is_post r "/toggle" = false /\ is_post r "/set_state" = false /\
   is_post r "/send_add_power" = false /\ is_post r "/send_lower_power" = true /\
   found = Some ("/send_lower_power", HTTP_POST, HandleSendLowerPower)) \/
  (is_post r "/toggle" = false /\ is_post r "/set_state" = false /\
   is_post r "/send_add_power" = false /\ is_post r "/send_lower_power" = false /\
   (found = Some ("/", HTTP_GET, HandleRoot) \/ found = None)).
Proof.
  destruct r as [m u a]. unfold is_post, five_routes.
  cbn [req_method req_uri]. cbv zeta.
  destruct m; cbn -[String.eqb].
  all: try (split_uri u "/"; cbn -[String.eqb]; tauto).
  split_uri u "/toggle"; [cbn; tauto|].
  split_uri u "/set_state"; [cbn; tauto|].
  split_uri u "/send_add_power"; [cbn; tauto|].
  split_uri u "/send_lower_power"; [cbn; tauto|].
  split_uri u "/"; cbn -[String.eqb]; rewrite ?E, ?E0, ?E1, ?E2; cbn; tauto.
Qed.

(** ** One [loop] iteration against the reference behaviour *)

Lemma loop_refines (i : option Request) (w : World) :
  handlers w = five_routes ->
  responseHeaders w = [] ->
  exists t,
    trace (exec (loop i) w) = trace w ++ t /\
    isFanOn (exec (loop i) w) = next_state (isFanOn w) i /\
    ir_sent t = frames_for i /\
    handlers (exec (loop i) w) = five_routes /\
    responseHeaders (exec (loop i) w) = [] /\
    List.length (responses t) = (if is_waiting i then 1 else 0)%nat /\
    forallb well_formed_response (responses t) = true.
Proof.
  intros Hh Hr. destruct i as [r|].
  2:{ exists []. cbn. rewrite app_nil_r. repeat split; first [assumption | reflexivity]. }
  pose proof (route_cases r) as C. cbv zeta in C. rewrite <- Hh in C.
  unfold next_state, frames_for.
  destruct C as [(T & F) | [(T & S & A & L & F) | [(T & S & A & F) |
                [(T & S & A & L & F) | (T & S & A & L & F)]]]].
  - apply loop_runs_route in F. destruct F as [-> _].
    cbn [run_handler]. rewrite handleToggle_exec, T.
    cbn [isFanOn handlers currentArgs responseHeaders trace with_currentArgs].
    rewrite Hr. eexists. split; [reflexivity|]. repeat split; first [assumption | reflexivity].
  - apply loop_runs_route in F. destruct F as [-> _].
    cbn [run_handler].
    pose proof (handleSetState_exec (with_currentArgs (req_args r) w)) as E.
    cbv zeta in E. rewrite E, T, S, A, L. clear E.
    unfold hasArg, arg, server_hasArg, server_arg.
    cbn [fst isFanOn handlers currentArgs responseHeaders trace with_currentArgs].
    rewrite Hr. eexists. split; [reflexivity|].
    split; [reflexivity|].
    destruct (existsb _ (req_args r)); repeat split; first [assumption | reflexivity].
  - apply loop_runs_route in F. destruct F as [-> _].
    cbn [run_handler]. rewrite handleSendAddPower_exec, T, A.
    cbn [isFanOn handlers currentArgs responseHeaders trace with_currentArgs].
    rewrite Hr, S. eexists. split; [reflexivity|]. repeat split; first [assumption | reflexivity].
  - apply loop_runs_route in F. destruct F as [-> _].
    cbn [run_handler]. rewrite handleSendLowerPower_exec, T, A, L.
    cbn [isFanOn handlers currentArgs responseHeaders trace with_currentArgs].
    rewrite Hr, S. eexists. split; [reflexivity|]. repeat split; first [assumption | reflexivity].
  - rewrite T, S, A, L. destruct F as [F | F].
    + apply loop_runs_route in F. destruct F as [-> _].
      cbn [run_handler]. rewrite handleRoot_exec.
      cbn [isFanOn handlers currentArgs responseHeaders trace with_currentArgs].
      rewrite Hr. eexists. split; [reflexivity|]. repeat split; first [assumption | reflexivity].
    + unfold loop, server_handleClient, exec.
      cbn [handlers with_currentArgs]. rewrite F.
      cbn [server_send snd isFanOn handlers currentArgs responseHeaders trace
           with_currentArgs with_responseHeaders with_trace].
      rewrite Hr. eexists. split; [reflexivity|]. repeat split; first [assumption | reflexivity].
Qed.

Lemma run_loop_app (ins1 ins2 : list (option Request)) (w : World) :
  run_loop (ins1 ++ ins2) w = run_loop ins2 (run_loop ins1 w).
Proof.
  revert w. induction ins1 as [|i ins1 IH]; intros w; cbn [run_loop app].
  - reflexivity.
  - apply IH.
Qed.

Lemma responses_app (s t : list Event) :
  responses (s ++ t) = responses s ++ responses t.
Proof.
  induction s as [|e s IH]; cbn [app responses]; [reflexivity|].
  destruct e; cbn [app]; rewrite IH; reflexivity.
Qed.

(** The same, along a whole run. *)
Lemma run_loop_refines (ins : list (option Request)) :
  forall w : World,
    handlers w = five_routes ->
    responseHeaders w = [] ->
    exists t,
      trace (run_loop ins w) = trace w ++ t /\
      isFanOn (run_loop ins w) = fold_left next_state ins (isFanOn w) /\
      ir_sent t = flat_map frames_for ins /\
      handlers (run_loop ins w) = five_routes /\
      responseHeaders (run_loop ins w) = [] /\
      List.length (responses t) =
        List.length (filter is_waiting ins) /\
      forallb well_formed_response (responses t) = true.
Proof.
  induction ins as [|i ins IH]; intros w Hh Hr; cbn [run_loop].
  - exists []. rewrite app_nil_r. repeat split; first [assumption | reflexivity].
  - destruct (loop_refines i w Hh Hr) as (t1 & E1 & S1 & I1 & H1 & R1 & N1 & W1).
    destruct (IH _ H1 R1) as (t2 & E2 & S2 & I2 & H2 & R2 & N2 & W2).
    exists (t1 ++ t2). rewrite E2, E1, app_assoc. split; [reflexivity|].
    rewrite S2, S1, ir_sent_app, I1, I2, responses_app, forallb_app, W1, W2.
    rewrite List.length_app, N1, N2.
    cbn [fold_left flat_map filter]. repeat split; try assumption.
    destruct i; reflexivity.
Qed.

Lemma after_setup_ready (fuel : nat) (radio : Radio) (w : World) :
  setup fuel radio boot = Some w ->
  isFanOn w = false /\ handlers w = five_routes /\ responseHeaders w = [] /\
  ir_sent (trace w) = [].
Proof.
  intros H. apply setup_globals in H. destruct H as (A & B & _ & C & D).
  repeat split; assumption.
Qed.

(** ** The waiting loop of [setup], exactly *)

Lemma with_trace_nil (w : World) : with_trace (trace w ++ []) w = w.
Proof. destruct w. unfold with_trace. cbn. rewrite app_nil_r. reflexivity. Qed.

Lemma wait_for_wifi_complete (radio : Radio) (n : nat) :
  forall (k : nat) (w : World) (fuel : nat),
    (forall j, (j < n)%nat -> WiFi_status radio (k + j) <> WL_CONNECTED) ->
    WiFi_status radio (k + n) = WL_CONNECTED ->
    (n < fuel)%nat ->
    wait_for_wifi fuel radio k w = Some (with_trace (trace w ++ waiting_dots n) w).
Proof.
  induction n as [|n IH]; intros k w fuel Hdown Hup Hfuel;
    (destruct fuel as [|fuel]; [lia|]); cbn [wait_for_wifi waiting_dots].
  - rewrite Nat.add_0_r in Hup. rewrite Hup. cbn. rewrite with_trace_nil.
    reflexivity.
  - destruct (wl_status_eqb (WiFi_status radio k) WL_CONNECTED) eqn:E.
    + apply wl_status_eqb_eq in E. exfalso.
      apply (Hdown 0%nat); [lia|]. rewrite Nat.add_0_r. exact E.
    + rewrite (IH (S k)).
      * run_sketch. reflexivity.
      * intros j Hj. replace (S k + j)%nat with (k + S j)%nat by lia.
        apply Hdown. lia.
      * replace (S k + n)%nat with (k + S n)%nat by lia. exact Hup.
      * lia.
Qed.

Lemma wait_for_wifi_blocked (radio : Radio) (fuel : nat) :
  forall (k : nat) (w : World),
    (forall j, WiFi_status radio j <> WL_CONNECTED) ->
    wait_for_wifi fuel radio k w = None.
Proof.
  induction fuel as [|fuel IH]; intros k w Hdown; cbn [wait_for_wifi].
  - reflexivity.
  - destruct (wl_status_eqb (WiFi_status radio k) WL_CONNECTED) eqn:E.
    + apply wl_status_eqb_eq in E. contradiction (Hdown k).
    + apply IH. exact Hdown.
Qed.

Lemma wait_for_wifi_responses (fuel : nat) (radio : Radio) :
  forall (k : nat) (w w' : World),
    wait_for_wifi fuel radio k w = Some w' ->
    responses (trace w') = responses (trace w).
Proof.
  induction fuel as [|fuel IH]; intros k w w' H; cbn [wait_for_wifi] in H.
  - discriminate H.
  - destruct (wl_status_eqb (WiFi_status radio k) WL_CONNECTED).
    + injection H as <-. reflexivity.
    + apply IH in H. rewrite H. run_sketch.
      rewrite responses_app. cbn. apply app_nil_r.
Qed.

Lemma setup_responses (fuel : nat) (radio : Radio) (w w' : World) :
  setup fuel radio w = Some w' -> responses (trace w') = responses (trace w).
Proof.
  unfold setup. intros H.
  destruct (wait_for_wifi fuel radio 0 (exec setup_prologue w)) as [w1|] eqn:E;
    [|discriminate H].
  injection H as <-. apply wait_for_wifi_responses in E. revert E.
  unfold setup_epilogue, setup_prologue. run_sketch.
  intros E. rewrite responses_app, E, responses_app. cbn [responses].
  rewrite !app_nil_r. reflexivity.
Qed.

(** X4. [setup] prints one dot, after a 500 ms delay, for each poll of
    WiFi.status() that does not report the connection, and nothing else
    between its two banners: when the first connected poll is number [n],
    and the bound on polls lets it be reached, [setup] returns with exactly
    this trace. *)
Theorem setup_prints_a_dot_per_failed_poll (radio : Radio) (n fuel : nat) :
  (forall j, (j < n)%nat -> WiFi_status radio j <> WL_CONNECTED) ->
  WiFi_status radio n = WL_CONNECTED ->
  (n < fuel)%nat ->
  exists w,
    setup fuel radio boot = Some w /\
    trace w =
      [ SerialBegin 115200; Delay 100;
        SerialPrintln (LF ++ "Starting ESP8266 State-aware IR Remote...");
        IRBegin 5; WiFiBegin "Xander" "e9c7uekd";
        SerialPrint "Connecting to WiFi" ] ++
      waiting_dots n ++
      [ SerialPrintln (LF ++ "WiFi connected!");
        SerialPrint "IP Address: http://";
        SerialPrintln (WiFi_localIP radio);
        ServerBegin 80;
        SerialPrintln "HTTP server started." ].
Proof.
  intros Hdown Hup Hfuel. unfold setup.
  rewrite (wait_for_wifi_complete radio n 0 _ fuel Hdown Hup Hfuel).
  eexists. split; [reflexivity|].
  unfold setup_epilogue, setup_prologue. run_sketch. reflexivity.
Qed.

Lemma setup_prints_a_dot_per_failed_poll_witness :
  exists w,
    setup 5 radio_up_third_poll boot = Some w /\
    trace w =
      [ SerialBegin 115200; Delay 100;
        SerialPrintln (LF ++ "Starting ESP8266 State-aware IR Remote...");
        IRBegin 5; WiFiBegin "Xander" "e9c7uekd";
        SerialPrint "Connecting to WiFi" ] ++
      waiting_dots 2 ++
      [ SerialPrintln (LF ++ "WiFi connected!");
        SerialPrint "IP Address: http://";
        SerialPrintln "10.0.0.7";
        ServerBegin 80;
        SerialPrintln "HTTP server started." ].
Proof.
  apply (setup_prints_a_dot_per_failed_poll radio_up_third_poll 2 5).
  - intros j Hj. destruct j as [|[|j]]; cbn; [discriminate | discriminate | lia].
  - reflexivity.
  - lia.
Defined.

(** X5. [setup] has no timeout: against a radio that never reports the
    connection it does not return, whatever the bound on polls, so no route
    is ever registered. *)
Theorem setup_blocks_without_wifi (radio : Radio) (fuel : nat) (w : World) :
  (forall k, WiFi_status radio k <> WL_CONNECTED) ->
  setup fuel radio w = None.
Proof.
  intros Hdown. unfold setup.
  rewrite (wait_for_wifi_blocked radio fuel 0 _ Hdown). reflexivity.
Qed.

Lemma setup_blocks_without_wifi_witness :
  setup 1000 radio_never_up boot = None.
Proof.
  apply (setup_blocks_without_wifi radio_never_up 1000 boot).
  intros k. cbn. discriminate.
Defined.

(** ** The handlers: log and page *)

(** X1. Whenever a handler writes the fan state to the serial log, it
    writes the state it has just stored: handleToggle logs the new state
    once; handleSetState logs once when a "state" argument is present (even
    one it does not accept, and then the state logged is the unchanged one)
    and not at all when it is absent; the other three handlers log no
    state. *)
Theorem state_log_matches_state (w : World) :
  logged_states (emitted handleToggle w) = [onoff (isFanOn (exec handleToggle w))] /\
  logged_states (emitted handleSetState w) =
    (if hasArg w "state" then [onoff (isFanOn (exec handleSetState w))] else []) /\
  logged_states (emitted handleRoot w) = [] /\
  logged_states (emitted handleSendAddPower w) = [] /\
  logged_states (emitted handleSendLowerPower w) = [].
Proof.
  pose proof (handleSetState_exec w) as E. cbv zeta in E.
  repeat split.
  - erewrite emitted_app; [|rewrite handleToggle_exec; reflexivity].
    rewrite handleToggle_exec. reflexivity.
  - erewrite emitted_app; [|rewrite E; reflexivity].
    rewrite E. destruct (hasArg w "state"); reflexivity.
  - erewrite emitted_app; [|rewrite handleRoot_exec; reflexivity]. reflexivity.
  - erewrite emitted_app; [|rewrite handleSendAddPower_exec; reflexivity].
    reflexivity.
  - erewrite emitted_app; [|rewrite handleSendLowerPower_exec; reflexivity].
    reflexivity.
Qed.

(** X2. The page handleRoot serves shows the stored state and offers the
    opposite action, in every state: with isFanOn true it reads ON and has
    the Turn OFF button, with isFanOn false it reads OFF and has the Turn ON
    button, never both; and serving it is all handleRoot does. *)
Theorem page_shows_state_and_opposite_button (w : World) :
  exists html,
    emitted handleRoot w =
      [HttpResponse 200 (Some "text/html") (responseHeaders w) html] /\
    contains "<p>Current State: <b>ON</b></p>" html = isFanOn w /\
    contains "<p>Current State: <b>OFF</b></p>" html = negb (isFanOn w) /\
    contains "<button type='submit' class='btn-main off'>Turn OFF</button>" html =
      isFanOn w /\
    contains "<button type='submit' class='btn-main'>Turn ON</button>" html =
      negb (isFanOn w) /\
    occurrences "Current State" html = 1%nat /\
    occurrences "Turn O" html = 1%nat.
Proof.
  exists (fst (handleRoot_html w)). split.
  - apply emitted_app. rewrite handleRoot_exec. reflexivity.
  - destruct (isFanOn w) eqn:E.
    + rewrite (handleRoot_html_flag w fan_on_world) by exact E.
      repeat split; vm_compute; reflexivity.
    + rewrite (handleRoot_html_flag w boot) by exact E.
      repeat split; vm_compute; reflexivity.
Qed.

(** X3. Every form of the page posts to a route that setup registers, in
    every state: the page has five forms, one each for /toggle,
    /send_add_power and /send_lower_power and two for /set_state, and the
    two sync buttons carry state=on and state=off, the two values
    handleSetState accepts. *)
Theorem page_forms_target_registered_routes (w : World) :
  let html := fst (handleRoot_html w) in
  occurrences "<form " html = 5%nat /\
  map (fun h : RequestHandler =>
         let '(u, m, _) := h in
         if HTTPMethod_eqb m HTTP_POST
         then occurrences ("<form action='" ++ u ++ "' method='post'") html
         else 0%nat)
      five_routes = [0; 1; 2; 1; 1]%nat /\
  occurrences "name='state'" html = 2%nat /\
  occurrences "<button type='submit' name='state' value='on' " html = 1%nat /\
  occurrences "<button type='submit' name='state' value='off' " html = 1%nat.
Proof.
  cbv zeta. destruct (isFanOn w) eqn:E.
  - rewrite (handleRoot_html_flag w fan_on_world) by exact E.
    repeat split; vm_compute; reflexivity.
  - rewrite (handleRoot_html_flag w boot) by exact E.
    repeat split; vm_compute; reflexivity.
Qed.

(** ** The server after [setup] *)

Lemma served_ready (fuel : nat) (radio : Radio) (w0 : World)
    (ins : list (option Request)) :
  setup fuel radio boot = Some w0 ->
  handlers (run_loop ins w0) = five_routes /\
  responseHeaders (run_loop ins w0) = [].
Proof.
  intros H. apply after_setup_ready in H. destruct H as (_ & Hh & Hr & _).
  destruct (run_loop_refines ins w0 Hh Hr) as (_ & _ & _ & _ & A & B & _).
  split; assumption.
Qed.

Lemma fold_toggles (r : option Request) (n : nat) :
  (forall b, next_state b r = negb b) ->
  forall b, fold_left next_state (repeat r n) b = xorb b (Nat.odd n).
Proof.
  intros Hr. induction n as [|n IH]; intros b; cbn [repeat fold_left].
  - destruct b; reflexivity.
  - rewrite Hr, IH, Nat.odd_succ, <- Nat.negb_odd.
    destruct b, (Nat.odd n); reflexivity.
Qed.

Lemma flat_map_repeat {A B} (f : A -> list B) (a : A) (b : B) (n : nat) :
  f a = [b] -> flat_map f (repeat a n) = repeat b n.
Proof.
  intros H. induction n as [|n IH]; cbn [repeat flat_map]; [reflexivity|].
  rewrite H, IH. reflexivity.
Qed.

(** X6. After setup, a request outside the five (path, method) pairs does
    nothing to the fan: no IR frame, isFanOn unchanged, no redirect. A GET
    to /toggle, for one, does not toggle. *)
Theorem unrouted_request_is_harmless
    (fuel : nat) (radio : Radio) (w0 : World)
    (ins : list (option Request)) (r : Request) :
  setup fuel radio boot = Some w0 ->
  ~ In (req_uri r, req_method r)
       [ ("/", HTTP_GET); ("/toggle", HTTP_POST); ("/set_state", HTTP_POST);
         ("/send_add_power", HTTP_POST); ("/send_lower_power", HTTP_POST) ] ->
  isFanOn (exec (loop (Some r)) (run_loop ins w0)) = isFanOn (run_loop ins w0) /\
  ir_sent (emitted (loop (Some r)) (run_loop ins w0)) = [] /\
  existsb is_redirect_to_root (emitted (loop (Some r)) (run_loop ins w0)) = false.
Proof.
  intros Hs Hout.
  destruct (served_ready fuel radio w0 ins Hs) as [Hh Hr].
  assert (F : find (canHandle (req_method r) (req_uri r))
                (handlers (run_loop ins w0)) = None).
  { rewrite Hh.
    destruct (find (canHandle (req_method r) (req_uri r)) five_routes) as [h|] eqn:E;
      [|reflexivity].
    exfalso. apply Hout. apply five_routes_accept. exists h. exact E. }
  assert (E : exec (loop (Some r)) (run_loop ins w0) =
              exec (server_send 404 (Some "text/plain") ("Not found: " ++ req_uri r))
                   (with_currentArgs (req_args r) (run_loop ins w0))).
  { unfold loop, server_handleClient, exec. cbn [handlers with_currentArgs].
    rewrite F. reflexivity. }
  split; [rewrite E; reflexivity|].
  erewrite emitted_app; [|rewrite E; reflexivity].
  split; reflexivity.
Qed.

Lemma unrouted_request_is_harmless_witness :
  isFanOn (exec (loop (Some (mkRequest HTTP_GET "/toggle" [])))
             (run_loop some_requests after_setup)) =
    isFanOn (run_loop some_requests after_setup) /\
  ir_sent (emitted (loop (Some (mkRequest HTTP_GET "/toggle" [])))
             (run_loop some_requests after_setup)) = [] /\
  existsb is_redirect_to_root
    (emitted (loop (Some (mkRequest HTTP_GET "/toggle" [])))
       (run_loop some_requests after_setup)) = false.
Proof.
  apply (unrouted_request_is_harmless 1 radio_up_at_once after_setup
           some_requests (mkRequest HTTP_GET "/toggle" [])).
  - reflexivity.
  - cbn. intros H.
    repeat (destruct H as [H | H]; [discriminate H|]). exact H.
Defined.

(** X7. No route shadows another: after setup, a request whose path and
    method are those of a registered route runs the handler registered
    with that very route, on the arguments of the request. *)
Theorem each_route_runs_its_own_handler
    (fuel : nat) (radio : Radio) (w0 : World) (ins : list (option Request))
    (u : string) (m : HTTPMethod) (fn : THandlerFunction)
    (args : list (string * string)) :
  setup fuel radio boot = Some w0 ->
  In (u, m, fn) (handlers w0) ->
  exec (loop (Some (mkRequest m u args))) (run_loop ins w0) =
  exec (run_handler fn) (with_currentArgs args (run_loop ins w0)).
Proof.
  intros Hs Hin.
  destruct (served_ready fuel radio w0 ins Hs) as [Hh _].
  destruct (after_setup_ready fuel radio w0 Hs) as (_ & H0 & _).
  rewrite H0 in Hin. cbn in Hin.
  repeat (destruct Hin as [Hin | Hin];
          [ injection Hin as <- <- <-;
            refine (proj1 (loop_runs_route (mkRequest _ _ args) _ _ _ _ _));
            rewrite Hh; reflexivity |]).
  contradiction.
Qed.

Lemma each_route_runs_its_own_handler_witness :
  exec (loop (Some (mkRequest HTTP_POST "/send_lower_power" [("x", "y")])))
       (run_loop some_requests after_setup) =
  exec (run_handler HandleSendLowerPower)
       (with_currentArgs [("x", "y")] (run_loop some_requests after_setup)).
Proof.
  apply (each_route_runs_its_own_handler 1 radio_up_at_once after_setup
           some_requests "/send_lower_power" HTTP_POST HandleSendLowerPower).
  - reflexivity.
  - cbn. tauto.
Defined.

(** X8. After setup every waiting request gets exactly one response, an
    iteration with no client gets none, and every response is the page
    (200 text/html, no extra header), the redirect (303 with the single
    header Location "/" and no body) or the server's 404: no header queued
    for one response leaks into the next. *)
Theorem one_well_formed_response_per_request
    (fuel : nat) (radio : Radio) (w0 : World) (ins : list (option Request)) :
  setup fuel radio boot = Some w0 ->
  List.length (responses (trace (run_loop ins w0))) =
    List.length (filter is_waiting ins) /\
  forallb well_formed_response (responses (trace (run_loop ins w0))) = true.
Proof.
  intros Hs. pose proof (setup_responses _ _ _ _ Hs) as R0. cbn in R0.
  apply after_setup_ready in Hs. destruct Hs as (_ & Hh & Hr & _).
  destruct (run_loop_refines ins w0 Hh Hr) as (t & E & _ & _ & _ & _ & N & W).
  rewrite E, responses_app, R0. cbn [app]. split; assumption.
Qed.

Lemma one_well_formed_response_per_request_witness :
  List.length (responses (trace (run_loop some_requests after_setup))) =
    List.length (filter is_waiting some_requests) /\
  forallb well_formed_response
    (responses (trace (run_loop some_requests after_setup))) = true.
Proof.
  apply (one_well_formed_response_per_request 1 radio_up_at_once after_setup
           some_requests).
  reflexivity.
Defined.

(** X9. The tracked state is a function of the requests alone: after setup
    and any sequence of loop iterations, isFanOn is what folding the
    reference step over the requests gives from OFF. Only POSTs to /toggle
    and to /set_state with an accepted value move it. *)
Theorem state_follows_requests
    (fuel : nat) (radio : Radio) (w0 : World) (ins : list (option Request)) :
  setup fuel radio boot = Some w0 ->
  isFanOn (run_loop ins w0) = fold_left next_state ins false.
Proof.
  intros Hs. apply after_setup_ready in Hs. destruct Hs as (H0 & Hh & Hr & _).
  destruct (run_loop_refines ins w0 Hh Hr) as (_ & _ & -> & _).
  rewrite H0. reflexivity.
Qed.

Lemma state_follows_requests_witness :
  isFanOn (run_loop some_requests after_setup) =
  fold_left next_state some_requests false.
Proof.
  apply (state_follows_requests 1 radio_up_at_once after_setup some_requests).
  reflexivity.
Defined.

(** X10. The IR output is a function of the requests alone: from power-up
    on, the frames sent are, in order, one per POST to /toggle,
    /send_add_power or /send_lower_power, and nothing for anything else; no
    frame is dropped, repeated, reordered or invented. *)
Theorem ir_follows_requests
    (fuel : nat) (radio : Radio) (w0 : World) (ins : list (option Request)) :
  setup fuel radio boot = Some w0 ->
  ir_sent (trace (run_loop ins w0)) = flat_map frames_for ins.
Proof.
  intros Hs. apply after_setup_ready in Hs. destruct Hs as (_ & Hh & Hr & H0).
  destruct (run_loop_refines ins w0 Hh Hr) as (t & E & _ & I & _).
  rewrite E, ir_sent_app, H0, I. reflexivity.
Qed.

Lemma ir_follows_requests_witness :
  ir_sent (trace (run_loop some_requests after_setup)) =
  flat_map frames_for some_requests.
Proof.
  apply (ir_follows_requests 1 radio_up_at_once after_setup some_requests).
  reflexivity.
Defined.

(** X11. After setup and any history, n POSTs to /toggle in a row send
    exactly n toggle frames and leave isFanOn flipped when n is odd and as
    it was when n is even. *)
Theorem toggles_count_and_parity
    (fuel : nat) (radio : Radio) (w0 : World) (ins : list (option Request))
    (args : list (string * string)) (n : nat) :
  setup fuel radio boot = Some w0 ->
  isFanOn (run_loop (ins ++ repeat (POST "/toggle" args) n) w0) =
    xorb (isFanOn (run_loop ins w0)) (Nat.odd n) /\
  ir_sent (trace (run_loop (ins ++ repeat (POST "/toggle" args) n) w0)) =
    ir_sent (trace (run_loop ins w0)) ++ repeat (MIDEA24, 0x80C0C0, 24) n.
Proof.
  intros Hs. destruct (served_ready fuel radio w0 ins Hs) as [Hh Hr].
  rewrite run_loop_app.
  destruct (run_loop_refines (repeat (POST "/toggle" args) n) _ Hh Hr)
    as (t & E & S & I & _).
  rewrite S, E, ir_sent_app, I. split.
  - apply fold_toggles. intros b. reflexivity.
  - f_equal. apply flat_map_repeat. reflexivity.
Qed.

Lemma toggles_count_and_parity_witness :
  isFanOn (run_loop (some_requests ++ repeat (POST "/toggle" []) 3) after_setup) =
    xorb (isFanOn (run_loop some_requests after_setup)) (Nat.odd 3) /\
  ir_sent (trace (run_loop (some_requests ++ repeat (POST "/toggle" []) 3)
                    after_setup)) =
    ir_sent (trace (run_loop some_requests after_setup)) ++
    repeat (MIDEA24, 0x80C0C0, 24) 3.
Proof.
  apply (toggles_count_and_parity 1 radio_up_at_once after_setup some_requests [] 3).
  reflexivity.
Defined.

(** X12. A manual sync overrides the history: after setup and any sequence
    of requests, a POST to /set_state whose "state" value is "on" leaves
    isFanOn true, and one whose value is "off" leaves it false, and either
    way no IR frame is sent for it. *)
Theorem sync_overrides_history
    (fuel : nat) (radio : Radio) (w0 : World) (ins : list (option Request))
    (args : list (string * string)) :
  setup fuel radio boot = Some w0 ->
  lookup_arg "state" args = "on" \/ lookup_arg "state" args = "off" ->
  isFanOn (run_loop (ins ++ [POST "/set_state" args]) w0) =
    String.eqb (lookup_arg "state" args) "on" /\
  ir_sent (trace (run_loop (ins ++ [POST "/set_state" args]) w0)) =
    ir_sent (trace (run_loop ins w0)).
Proof.
  intros Hs Hv. destruct (served_ready fuel radio w0 ins Hs) as [Hh Hr].
  rewrite run_loop_app. cbn [run_loop].
  destruct (loop_refines (POST "/set_state" args) _ Hh Hr)
    as (t & E & S & I & _).
  rewrite S, E, ir_sent_app, I.
  assert (Hhas : existsb (fun kv => String.eqb (fst kv) "state") args = true).
  { apply lookup_arg_nonempty. destruct Hv as [-> | ->]; discriminate. }
  split.
  - unfold next_state, POST, is_post. cbn [req_method req_uri req_args].
    cbn [HTTPMethod_eqb andb]. rewrite Hhas.
    change (String.eqb "/set_state" "/toggle") with false.
    change (String.eqb "/set_state" "/set_state") with true. cbv iota.
    destruct Hv as [-> | ->]; reflexivity.
  - cbn. apply app_nil_r.
Qed.

Lemma sync_overrides_history_witness :
  isFanOn (run_loop (some_requests ++ [POST "/set_state" [("state", "on")]])
             after_setup) = true /\
  ir_sent (trace (run_loop (some_requests ++ [POST "/set_state" [("state", "on")]])
                    after_setup)) =
    ir_sent (trace (run_loop some_requests after_setup)).
Proof.
  apply (sync_overrides_history 1 radio_up_at_once after_setup some_requests
           [("state", "on")]).
  - reflexivity.
  - left. reflexivity.
Defined.
